(** * sitepoint-fastify: the in-memory blog store and its route handlers

    A shallow embedding of [controller/blogs.js] and [routes/blogs.js].
    The module-level array [blogs] is the state; every handler is a
    computation in a state-and-exception monad over it.  The JavaScript
    primitives the handlers rely on (numbers, [Number], strict equality,
    template literals, [Array.prototype.find/map/filter/push]) are modelled
    first, in [Module JS]. *)

From Stdlib Require Import ZArith List String Ascii Bool Lia.
From Stdlib Require Import SpecFloat.
From Stdlib Require Import PeanoNat.
Import ListNotations.

Local Open Scope string_scope.
Local Open Scope Z_scope.

(* ================================================================= *)
(** * The JavaScript runtime the handlers use *)

Module JS.

(** ** Numbers

    A JavaScript number is an IEEE 754 binary64 value.  [spec_float] is the
    Standard Library's inductive description of such values; all the
    operations below are instantiated at precision 53 and maximal exponent
    1024. *)

Definition number : Type := spec_float.

Definition prec : Z := 53.
Definition emax : Z := 1024.

Definition NaN : number := S754_nan.

(** The number nearest to [m * 2^e] (ties to even). *)
Definition round_bin (m e : Z) : number := binary_normalize prec emax m e false.

(** The number nearest to the integer [z]. *)
Definition num_of_Z (z : Z) : number := round_bin z 0.

Definition num_of_nat (n : nat) : number := num_of_Z (Z.of_nat n).

(** [a + b] on numbers. *)
Definition add (a b : number) : number := SFadd prec emax a b.

(** [a === b] and [a !== b] on numbers: [NaN] differs from everything,
    itself included, and the two zeros are equal. *)
Definition strict_eq (a b : number) : bool := SFeqb a b.
Definition strict_neq (a b : number) : bool := negb (strict_eq a b).

Infix "===" := strict_eq (at level 70, no associativity).
Infix "!==" := strict_neq (at level 70, no associativity).

(** The number nearest to [sign * d * 10^e], for [0 <= d].  A negative
    power of ten is divided out with enough guard bits and a sticky bit, so
    that the final rounding is the correct one. *)
Definition round_dec (neg : bool) (d e : Z) : number :=
  if d =? 0 then S754_zero neg
  else
    let s := if neg then Z.opp d else d in
    if 0 <=? e then round_bin (s * 10 ^ e) 0
    else
      let den := 10 ^ (- e) in
      let j := 64 + Z.log2 den in
      let q := (d * 2 ^ j) / den in
      let r := (d * 2 ^ j) mod den in
      let m := 2 * q + (if r =? 0 then 0 else 1) in
      round_bin (if neg then Z.opp m else m) (- j - 1).

(** ** [Number(string)]

    Strings carry 8-bit characters.  The grammar is ECMAScript's
    StringNumericLiteral: optional white space around an optional literal,
    which is a signed decimal literal (with [Infinity], fraction and
    exponent) or an unsigned binary, octal or hexadecimal integer.  Anything
    else is [NaN]; the empty literal is [+0]. *)

Definition code (c : ascii) : Z := Z.of_N (N_of_ascii c).

Definition is_white (c : ascii) : bool :=
  let n := code c in
  ((9 <=? n) && (n <=? 13)) || (n =? 32) || (n =? 160).

Definition digit_val (c : ascii) : option Z :=
  let n := code c in
  if (48 <=? n) && (n <=? 57) then Some (n - 48)
  else if (97 <=? n) && (n <=? 102) then Some (n - 87)
  else if (65 <=? n) && (n <=? 70) then Some (n - 55)
  else None.

Definition digit_in (radix : Z) (c : ascii) : option Z :=
  match digit_val c with
  | Some v => if v <? radix then Some v else None
  | None => None
  end.

Fixpoint drop_white (l : list ascii) : list ascii :=
  match l with
  | c :: l' => if is_white c then drop_white l' else l
  | [] => []
  end.

Definition trim (l : list ascii) : list ascii :=
  rev (drop_white (rev (drop_white l))).

(** Reads the longest prefix of digits of the given radix: its value, its
    length, and what follows it. *)
Fixpoint digits (radix : Z) (l : list ascii) (acc cnt : Z)
  : Z * Z * list ascii :=
  match l with
  | c :: l' =>
      match digit_in radix c with
      | Some v => digits radix l' (acc * radix + v) (cnt + 1)
      | None => (acc, cnt, l)
      end
  | [] => (acc, cnt, [])
  end.

(** NonDecimalIntegerLiteral, after its two-character prefix. *)
Definition radix_literal (radix : Z) (l : list ascii) : number :=
  match digits radix l 0 0 with
  | (v, cnt, []) => if 0 <? cnt then num_of_Z v else NaN
  | _ => NaN
  end.

(** ExponentPart (optional): the exponent, or [None] when malformed. *)
Definition exponent_part (l : list ascii) : option Z :=
  match l with
  | [] => Some 0
  | c :: l' =>
      if (code c =? 101) || (code c =? 69) then
        let '(neg, l'') :=
          match l' with
          | s :: r => if code s =? 45 then (true, r)
                      else if code s =? 43 then (false, r)
                      else (false, l')
          | [] => (false, l')
          end in
        match digits 10 l'' 0 0 with
        | (v, cnt, []) =>
            if 0 <? cnt then Some (if neg then - v else v) else None
        | _ => None
        end
      else None
  end.

(** StrUnsignedDecimalLiteral, with the sign already read. *)
Definition unsigned_decimal (neg : bool) (l : list ascii) : number :=
  if list_eq_dec ascii_dec l (list_ascii_of_string "Infinity")
  then S754_infinity neg
  else
    let '(ip, ic, l1) := digits 10 l 0 0 in
    let '(fp, fc, l2) :=
      match l1 with
      | c :: r => if code c =? 46 then digits 10 r 0 0 else (0, 0, l1)
      | [] => (0, 0, l1)
      end in
    if 0 <? ic + fc then
      match exponent_part l2 with
      | Some ex => round_dec neg (ip * 10 ^ fc + fp) (ex - fc)
      | None => NaN
      end
    else NaN.

Definition Number (s : string) : number :=
  match trim (list_ascii_of_string s) with
  | [] => S754_zero false
  | c :: l =>
      if code c =? 45 then unsigned_decimal true l
      else if code c =? 43 then unsigned_decimal false l
      else
        match l with
        | x :: l' =>
            if code c =? 48 then
              if (code x =? 120) || (code x =? 88) then radix_literal 16 l'
              else if (code x =? 111) || (code x =? 79) then radix_literal 8 l'
              else if (code x =? 98) || (code x =? 66) then radix_literal 2 l'
              else unsigned_decimal false (c :: l)
            else unsigned_decimal false (c :: l)
        | [] => unsigned_decimal false (c :: l)
        end
  end.

(** ** Number to string, as a template literal does it

    ECMAScript's Number::toString in radix 10: the shortest decimal
    [s * 10^(n-k)], with [k] digits, that reads back as the same number,
    printed plainly when [-6 < n <= 21] and with an exponent otherwise. *)

Fixpoint digits_of (fuel : nat) (z : Z) (acc : list ascii) : list ascii :=
  match fuel with
  | O => acc
  | S f =>
      let acc' := ascii_of_N (Z.to_N (48 + z mod 10)) :: acc in
      if z <? 10 then acc' else digits_of f (z / 10) acc'
  end.

(** The decimal digits of [0 <= z], most significant first. *)
Definition decimal (z : Z) : list ascii :=
  digits_of (S (Z.to_nat (Z.log2 z))) z [].

Definition zeros (n : Z) : list ascii := repeat "0"%char (Z.to_nat n).

(** Is [num / den < 10^n] ? *)
Definition below_pow10 (num den n : Z) : bool :=
  if 0 <=? n then num <? den * 10 ^ n else num * 10 ^ (- n) <? den.

(** The least [n], from [n] upwards, with [num / den < 10^n]. *)
Fixpoint magnitude (fuel : nat) (num den n : Z) : Z :=
  match fuel with
  | O => n
  | S f => if below_pow10 num den n then n else magnitude f num den (n + 1)
  end.

(** The [k]-digit integer [s] nearest to [num / den / 10^(n-k)] for which
    [s * 10^(n-k)] reads back as [x], if there is one. *)
Definition candidate (num den : Z) (x : number) (n k : Z) : option Z :=
  let p := n - k in
  let a := if 0 <=? p then num else num * 10 ^ (- p) in
  let b := if 0 <=? p then den * 10 ^ p else den in
  let lo := a / b in
  let hi := lo + 1 in
  let ok s :=
    (10 ^ (k - 1) <=? s) && (s <? 10 ^ k) && (round_dec false s p === x) in
  match ok lo, ok hi with
  | true, true =>
      match 2 * (a mod b) ?= b with
      | Lt => Some lo
      | Gt => Some hi
      | Eq => Some (if Z.even lo then lo else hi)
      end
  | true, false => Some lo
  | false, true => Some hi
  | false, false => None
  end.

(** The triple [(n, k, s)] with the least [k], from [k] upwards. *)
Fixpoint shortest (fuel : nat) (num den : Z) (x : number) (n0 k : Z)
  : Z * Z * Z :=
  match fuel with
  | O => (n0, k, 0)
  | S f =>
      match candidate num den x n0 k with
      | Some s => (n0, k, s)
      | None =>
          match candidate num den x (n0 + 1) k with
          | Some s => (n0 + 1, k, s)
          | None => shortest f num den x n0 (k + 1)
          end
      end
  end.

Definition format (nks : Z * Z * Z) : list ascii :=
  let '(n, k, s) := nks in
  let ds := decimal s in
  if (k <=? n) && (n <=? 21) then ds ++ zeros (n - k)
  else if (0 <? n) && (n <=? 21) then
    firstn (Z.to_nat n) ds ++ "."%char :: skipn (Z.to_nat n) ds
  else if (-6 <? n) && (n <=? 0) then
    "0"%char :: "."%char :: zeros (- n) ++ ds
  else
    let ex :=
      "e"%char :: (if n - 1 <? 0 then "-"%char else "+"%char)
               :: decimal (Z.abs (n - 1)) in
    match ds with
    | d :: (_ :: _) as rest => d :: "."%char :: rest ++ ex
    | _ => ds ++ ex
    end.

Definition ToString (x : number) : string :=
  match x with
  | S754_nan => "NaN"
  | S754_zero _ => "0"
  | S754_infinity s => if s then "-Infinity" else "Infinity"
  | S754_finite sg m e =>
      let num := if 0 <=? e then Zpos m * 2 ^ e else Zpos m in
      let den := if 0 <=? e then 1 else 2 ^ (- e) in
      let n0 := magnitude 700 num den (-330) in
      let body :=
        format (shortest 17 num den (S754_finite false m e) n0 1) in
      string_of_list_ascii (if sg then "-"%char :: body else body)
  end.

(** ** Values, exceptions and computations *)

(** The values a parsed JSON body, or a missing one, can be. *)
#[local] Set Warnings "-register-all".
Inductive value : Type :=
| VUndefined
| VNull
| VBool (b : bool)
| VNumber (n : number)
| VString (s : string)
| VArray (items : list value)
| VObject (props : list (string * value)).

(** The only exception the handlers can raise: reading a property of
    [undefined] or [null]. *)
Inductive error : Type := TypeError.

Inductive completion (A : Type) : Type :=
| Normal (a : A)
| Throw (e : error).
Arguments Normal {A} a.
Arguments Throw {A} e.

Fixpoint lookup {V : Type} (key : string) (props : list (string * V))
  : option V :=
  match props with
  | [] => None
  | (k, v) :: rest => if String.eqb k key then Some v else lookup key rest
  end.

(** [o.key] for a key no prototype defines (such as [title]): an object
    answers with its own property or [undefined], [undefined] and [null]
    raise, every other value answers [undefined]. *)
Definition get (o : value) (key : string) : completion value :=
  match o with
  | VUndefined | VNull => Throw TypeError
  | VObject props =>
      Normal match lookup key props with Some v => v | None => VUndefined end
  | _ => Normal VUndefined
  end.

(** Computations over a state [S] that may raise.  A raised exception
    keeps the state reached so far. *)
Section Computations.
Context {S : Type}.

Definition M (A : Type) : Type := S -> completion A * S.

Definition ret {A} (a : A) : M A := fun s => (Normal a, s).

Definition bind {A B} (c : M A) (k : A -> M B) : M B :=
  fun s =>
    match c s with
    | (Normal a, s') => k a s'
    | (Throw e, s') => (Throw e, s')
    end.

Definition throw {A} (e : error) : M A := fun s => (Throw e, s).

Definition lift {A} (c : completion A) : M A := fun s => (c, s).

Definition read : M S := fun s => (Normal s, s).

Definition write (s' : S) : M unit := fun _ => (Normal tt, s').
End Computations.
Arguments M S A : clear implicits.
Arguments ret {S A} a s /.
Arguments bind {S A B} c k s /.
Arguments throw {S A} e s /.
Arguments lift {S A} c s /.
Arguments read {S} s /.
Arguments write {S} s' s /.

Notation "x <- c ;; k" := (bind c (fun x => k))
  (at level 61, c at next level, right associativity).
Notation "c ;; k" := (bind c (fun _ => k))
  (at level 61, right associativity).

(** ** Arrays

    An array is the list of its elements.  The callbacks are computations:
    when one raises, the traversal stops and the exception propagates. *)
Section Arrays.
Context {S A : Type}.

(** [arr.find(p)]: the first element [p] accepts, else [undefined]. *)
Fixpoint find (p : A -> M S bool) (arr : list A) : M S (option A) :=
  match arr with
  | [] => ret None
  | x :: rest =>
      b <- p x ;;
      if b then ret (Some x) else find p rest
  end.

(** [arr.filter(p)]: the elements [p] accepts, in order. *)
Fixpoint filter (p : A -> M S bool) (arr : list A) : M S (list A) :=
  match arr with
  | [] => ret []
  | x :: rest =>
      b <- p x ;;
      kept <- filter p rest ;;
      ret (if b then x :: kept else kept)
  end.

(** [arr.map(f)]: the results of [f], position by position. *)
Fixpoint map {B : Type} (f : A -> M S B) (arr : list A) : M S (list B) :=
  match arr with
  | [] => ret []
  | x :: rest =>
      y <- f x ;;
      ys <- map f rest ;;
      ret (y :: ys)
  end.

(** [arr.push(x)] as a function of the array. *)
Definition push (arr : list A) (x : A) : list A := arr ++ [x].
End Arrays.

End JS.

(* ================================================================= *)
(** * controller/blogs.js *)

Module Controller.
Import JS.

(** A blog object [{ id, title }].  The title is whatever value the
    request body carried under [title]. *)
Record blog : Type := { id : number; title : value }.

(** An element of the array [blogs]: a blog object, or [undefined]
    ([None]), which is what a callback without a [return] leaves behind. *)
Definition entry : Type := option blog.

(** The module-level variable [blogs]. *)
Definition store : Type := list entry.

(** Demo data *)
Definition blogs : store :=
  [ Some {| id := num_of_Z 1; title := VString "This is an experiment" |};
    Some {| id := num_of_Z 2; title := VString "Fastify is pretty cool" |};
    Some {| id := num_of_Z 3; title := VString "Just another blog, yea!" |} ].

(** What a handler reads of [req]: [req.params.id] and [req.body]. *)
Record request : Type := { params_id : string; body : value }.

(** What a handler returns: the array, a blog object, [undefined], or an
    object [{ msg }]. *)
Inductive reply : Type :=
| Blogs (arr : list entry)
| Blog (b : blog)
| Undefined
| Msg (msg : string).

(** [blog.id] inside a callback: raises on an [undefined] element. *)
Definition blog_id (e : entry) : M store number :=
  match e with
  | Some b => ret (id b)
  | None => throw TypeError
  end.

(** [req.body.title] *)
Definition body_title (req : request) : M store value :=
  lift (get (body req) "title").
Arguments body_title req : simpl never.

Definition getAllBlogs (req : request) : M store reply :=
  arr <- read ;;
  ret (Blogs arr).

Definition getBlog (req : request) : M store reply :=
  let id := Number (params_id req) in
  arr <- read ;;
  found <- find (fun blog => i <- blog_id blog ;; ret (i === id)) arr ;;
  ret match found with
      | Some (Some b) => Blog b
      | _ => Undefined
      end.

Definition addBlog (req : request) : M store reply :=
  arr <- read ;;
  let id := add (num_of_nat (List.length arr)) (num_of_Z 1) in
  t <- body_title req ;;
  let newBlog := {| id := id; title := t |} in
  arr <- read ;;
  write (push arr (Some newBlog)) ;;
  ret (Blog newBlog).

Definition updateBlog (req : request) : M store reply :=
  let id := Number (params_id req) in
  arr <- read ;;
  arr' <- map (fun blog =>
                 i <- blog_id blog ;;
                 if i === id then
                   t <- body_title req ;;
                   ret (Some {| id := id; title := t |})
                 else ret None) arr ;;
  write arr' ;;
  t <- body_title req ;;
  ret (Blog {| id := id; title := t |}).

Definition deleteBlog (req : request) : M store reply :=
  let id := Number (params_id req) in
  arr <- read ;;
  arr' <- filter (fun blog => i <- blog_id blog ;; ret (i !== id)) arr ;;
  write arr' ;;
  ret (Msg ("Blog with ID " ++ ToString id ++ " is deleted")%string).

End Controller.

(* ================================================================= *)
(** * routes/blogs.js *)

Module Routes.
Import JS Controller.

(** A property schema [{ type: '...' }]. *)
Record property_schema : Type := { type : string }.

(** An object schema.  A keyword the source leaves out has its default:
    [additionalProperties] is [true], [required] is empty. *)
Record object_schema : Type := {
  object_type : string;
  additionalProperties : bool;
  required : list string;
  properties : list (string * property_schema)
}.

(** The [schema] of a route: [params], [body] and [response] per status
    code, each optional. *)
Record route_schema : Type := {
  params : list (string * property_schema);
  body : option object_schema;
  response : list (Z * object_schema)
}.

Record route : Type := {
  method : string;
  url : string;
  schema : option route_schema;
  handler : request -> M store reply
}.

(** Validation schema for blogs *)
Definition blog_response : list (Z * object_schema) :=
  [ (200, {| object_type := "object";
             additionalProperties := true;
             required := [];
             properties := [ ("id", {| type := "integer" |});
                             ("title", {| type := "string" |}) ] |}) ].

Definition getBlogValidation : route_schema :=
  {| params := [ ("id", {| type := "string" |}) ];
     body := None;
     response := blog_response |}.

Definition addBlogValidation : route_schema :=
  {| params := [];
     body := Some {| object_type := "object";
                     additionalProperties := false;
                     required := [ "title" ];
                     properties := [ ("title", {| type := "string" |}) ] |};
     response := blog_response |}.

Definition routes : list route :=
  [ {| method := "GET"; url := "/api/blogs";
       schema := None; handler := getAllBlogs |};
    {| method := "GET"; url := "/api/blogs/:id";
       schema := Some getBlogValidation; handler := getBlog |};
    {| method := "POST"; url := "/api/blogs";
       schema := Some addBlogValidation; handler := addBlog |};
    {| method := "PUT"; url := "/api/blogs/:id";
       schema := None; handler := updateBlog |};
    {| method := "DELETE"; url := "/api/blogs/:id";
       schema := None; handler := deleteBlog |} ].

(** ** Validation and dispatch *)

Definition is_integer (n : number) : bool :=
  match n with
  | S754_zero _ => true
  | S754_finite _ m e => (0 <=? e) || (Zpos m mod 2 ^ (- e) =? 0)
  | _ => false
  end.

(** Does the value have the JSON type named [t] ? *)
Definition has_type (t : string) (v : value) : bool :=
  match v with
  | VString _ => String.eqb t "string"
  | VNumber n =>
      String.eqb t "number" || (String.eqb t "integer" && is_integer n)
  | VBool _ => String.eqb t "boolean"
  | VNull => String.eqb t "null"
  | VArray _ => String.eqb t "array"
  | VObject _ => String.eqb t "object"
  | VUndefined => false
  end.

Definition has_key {V : Type} (key : string) (props : list (string * V))
  : bool :=
  match lookup key props with Some _ => true | None => false end.

(** Modelled from the spec: the generic validator that checks a request
    body against the declared object schema (the framework's validator is
    not part of the repository).  The body must be of the declared type,
    carry every required property, carry only declared properties when
    additional ones are not allowed, and each declared property must have
    its declared type.  The answer is the first violation, if any. *)
Definition validate_body (sch : object_schema) (b : value) : option string :=
  if negb (has_type (object_type sch) b) then
    Some ("body should be " ++ object_type sch)%string
  else
    match b with
    | VObject props =>
        match List.find (fun k => negb (has_key k props)) (required sch) with
        | Some k =>
            Some ("body should have required property '" ++ k ++ "'")%string
        | None =>
            if negb (additionalProperties sch)
               && existsb (fun kv => negb (has_key (fst kv) (properties sch)))
                    props
            then Some "body should NOT have additional properties"
            else
              match
                List.find
                  (fun kp =>
                     match lookup (fst kp) props with
                     | Some v => negb (has_type (type (snd kp)) v)
                     | None => false
                     end) (properties sch)
              with
              | Some kp =>
                  Some ("body." ++ fst kp ++ " should be "
                          ++ type (snd kp))%string
              | None => None
              end
        end
    | _ => None
    end.

(** Modelled from the spec: path parameters are checked against their
    declared types; a path parameter is always a string. *)
Definition validate_params (ps : list (string * property_schema))
    (req : request) : option string :=
  match lookup "id" ps with
  | Some p =>
      if has_type (type p) (VString (params_id req)) then None
      else Some ("params.id should be " ++ type p)%string
  | None => None
  end.

Definition validate (sch : option route_schema) (req : request)
  : option string :=
  match sch with
  | None => None
  | Some rs =>
      match validate_params (params rs) req with
      | Some message => Some message
      | None =>
          match body rs with
          | Some bs => validate_body bs (Controller.body req)
          | None => None
          end
      end
  end.

(** What the caller receives: the handler's return value, the validation
    error [{ statusCode: 400, error: 'Bad Request', message }], or a 404
    when no route matches. *)
Inductive outcome : Type :=
| Sent (r : reply)
| BadRequest (message : string)
| NotFound.

(** Modelled from the spec: validation comes first and its failure
    short-circuits the operation; otherwise the handler runs. *)
Definition dispatch (r : route) (req : request) : M store outcome :=
  match validate (schema r) req with
  | Some message => ret (BadRequest message)
  | None => rep <- handler r req ;; ret (Sent rep)
  end.

(** One inbound request: method, matched route pattern, and [req]. *)
Record call : Type := { c_method : string; c_url : string; c_req : request }.

Definition inject (c : call) : M store outcome :=
  match
    List.find (fun r => String.eqb (method r) (c_method c)
                        && String.eqb (url r) (c_url c)) routes
  with
  | Some r => dispatch r (c_req c)
  | None => ret NotFound
  end.

(** The server over a sequence of requests.  A handler that raises fails
    its own request only; the next one sees the state it left. *)
Fixpoint serve (calls : list call) (s : store)
  : list (completion outcome) * store :=
  match calls with
  | [] => ([], s)
  | c :: rest =>
      let '(r, s') := inject c s in
      let '(rs, s'') := serve rest s' in
      (r :: rs, s'')
  end.

(** Requests, as a client writes them. *)
Definition json_title (t : string) : value := VObject [ ("title", VString t) ].

Definition GET_all : call :=
  {| c_method := "GET"; c_url := "/api/blogs";
     c_req := {| params_id := ""; Controller.body := VUndefined |} |}.
Definition GET (i : string) : call :=
  {| c_method := "GET"; c_url := "/api/blogs/:id";
     c_req := {| params_id := i; Controller.body := VUndefined |} |}.
Definition POST (b : value) : call :=
  {| c_method := "POST"; c_url := "/api/blogs";
     c_req := {| params_id := ""; Controller.body := b |} |}.
Definition PUT (i : string) (b : value) : call :=
  {| c_method := "PUT"; c_url := "/api/blogs/:id";
     c_req := {| params_id := i; Controller.body := b |} |}.
Definition DELETE (i : string) : call :=
  {| c_method := "DELETE"; c_url := "/api/blogs/:id";
     c_req := {| params_id := i; Controller.body := VUndefined |} |}.

End Routes.

(* ================================================================= *)
(** * Properties of the handlers *)

Import JS Controller Routes.

(** Every element of the array is a blog object (none is [undefined]). *)
Definition all_blogs (s : store) : bool :=
  forallb (fun e => match e with Some _ => true | None => false end) s.

(** The element is a blog object whose id is [===] to [n]. *)
Definition has_id (n : number) (e : entry) : bool :=
  match e with
  | Some b => id b === n
  | None => false
  end.

(** No two elements of the array are blog objects with [===] ids. *)
Fixpoint unique_ids (s : store) : bool :=
  match s with
  | [] => true
  | Some b :: rest => negb (existsb (has_id (id b)) rest) && unique_ids rest
  | None :: rest => unique_ids rest
  end.

(** The store of the scenario: records 1 "A", 2 "B", 3 "C". *)
Definition abc : store :=
  [ Some {| id := num_of_Z 1; title := VString "A" |};
    Some {| id := num_of_Z 2; title := VString "B" |};
    Some {| id := num_of_Z 3; title := VString "C" |} ].

(** The body has no [title] property (a body that is not an object has
    none). *)
Definition lacks_title (b : value) : Prop :=
  match b with
  | VObject props => lookup "title" props = None
  | _ => True
  end.

(** The body is an object with a property other than [title]. *)
Definition has_other_property (b : value) : Prop :=
  exists props k v, b = VObject props /\ In (k, v) props /\ k <> "title".

(** [p * 2^n] on binary positives. *)
Definition shl (p : positive) (n : nat) : positive :=
  nat_rect (fun _ => positive) p (fun _ => xO) n.

(** The records carry the ids [k], [k + 1], ... in array order. *)
Fixpoint counted (k : nat) (s : store) : Prop :=
  match s with
  | [] => True
  | Some b :: rest => id b = num_of_nat k /\ counted (S k) rest
  | None :: _ => False
  end.

(** ** The array traversals on arrays without [undefined] *)

Section Traversals.
Variable n : number.

Lemma all_blogs_cons (e : entry) (s : store) :
  all_blogs (e :: s) = true -> exists b, e = Some b /\ all_blogs s = true.
Proof.
  unfold all_blogs; simpl; intros H.
  apply andb_true_iff in H as [He Hs].
  destruct e as [b|]; [eauto | discriminate].
Qed.

Lemma find_has_id (s st : store) :
  all_blogs s = true ->
  find (fun blog => i <- blog_id blog ;; ret (i === n)) s st
  = (Normal (List.find (has_id n) s), st).
Proof.
  induction s as [|e s IH]; intros H; [reflexivity|].
  apply all_blogs_cons in H as (b & -> & Hs).
  simpl.
  destruct (id b === n); [reflexivity | exact (IH Hs)].
Qed.

Lemma filter_has_id (s st : store) :
  all_blogs s = true ->
  filter (fun blog => i <- blog_id blog ;; ret (i !== n)) s st
  = (Normal (List.filter (fun e => negb (has_id n e)) s), st).
Proof.
  induction s as [|e s IH]; intros H; [reflexivity|].
  apply all_blogs_cons in H as (b & -> & Hs).
  simpl. rewrite (IH Hs). unfold strict_neq.
  destruct (id b === n); reflexivity.
Qed.

Lemma map_has_id (req : request) (t : value) (s st : store) :
  all_blogs s = true ->
  (get (Controller.body req) "title" = Normal t
   \/ existsb (has_id n) s = false) ->
  map (fun blog =>
         i <- blog_id blog ;;
         if i === n then
           t <- body_title req ;; ret (Some {| id := n; title := t |})
         else ret None) s st
  = (Normal (List.map (fun e => if has_id n e
                                then Some {| id := n; title := t |}
                                else None) s), st).
Proof.
  induction s as [|e s IH]; intros H Ht; [reflexivity|].
  apply all_blogs_cons in H as (b & -> & Hs).
  simpl in Ht |- *.
  destruct (id b === n) eqn:E.
  - destruct Ht as [Ht | Ht]; [|discriminate].
    simpl. rewrite Ht.
    rewrite (IH Hs (or_introl Ht)). reflexivity.
  - simpl. rewrite (IH Hs); [reflexivity|].
    destruct Ht as [Ht | Ht]; [left | right]; assumption.
Qed.
End Traversals.

(** ** What each handler computes *)

Section Handlers.
Variable req : request.

Lemma getAllBlogs_spec (s : store) :
  getAllBlogs req s = (Normal (Blogs s), s).
Proof. reflexivity. Qed.

(** [find] with the id callback never assigns to [blogs]. *)
Lemma find_keeps_state (n : number) (arr : list entry) (st : store) :
  snd (find (fun blog => i <- blog_id blog ;; ret (i === n)) arr st) = st.
Proof.
  induction arr as [|[b|] arr IH]; simpl; try reflexivity.
  destruct (id b === n); [reflexivity | exact IH].
Qed.

Lemma getBlog_keeps_store (s : store) : snd (getBlog req s) = s.
Proof.
  unfold getBlog. simpl.
  pose proof (find_keeps_state (Number (params_id req)) s s) as H.
  destruct (find _ s s) as [[found|e] s']; simpl in *; exact H.
Qed.

Lemma getBlog_all_blogs (s : store) :
  all_blogs s = true ->
  getBlog req s
  = (Normal match List.find (has_id (Number (params_id req))) s with
            | Some (Some b) => Blog b
            | _ => Undefined
            end, s).
Proof.
  intros H. unfold getBlog. simpl.
  rewrite (find_has_id _ _ _ H). reflexivity.
Qed.

Lemma addBlog_spec (s : store) (t : value) :
  get (Controller.body req) "title" = Normal t ->
  let newBlog :=
    {| id := add (num_of_nat (List.length s)) (num_of_Z 1); title := t |} in
  addBlog req s = (Normal (Blog newBlog), (s ++ [Some newBlog])%list).
Proof.
  intros H. unfold addBlog. simpl.
  rewrite H. reflexivity.
Qed.

Lemma updateBlog_all_blogs (s : store) (t : value) :
  all_blogs s = true ->
  get (Controller.body req) "title" = Normal t ->
  let updated := {| id := Number (params_id req); title := t |} in
  updateBlog req s
  = (Normal (Blog updated),
     List.map (fun e => if has_id (Number (params_id req)) e
                        then Some updated else None) s).
Proof.
  intros H Ht. unfold updateBlog. simpl.
  rewrite (map_has_id _ req t s s H (or_introl Ht)).
  simpl. rewrite Ht. reflexivity.
Qed.

Lemma deleteBlog_all_blogs (s : store) :
  all_blogs s = true ->
  deleteBlog req s
  = (Normal (Msg ("Blog with ID " ++ ToString (Number (params_id req))
                    ++ " is deleted")%string),
     List.filter (fun e => negb (has_id (Number (params_id req)) e)) s).
Proof.
  intros H. unfold deleteBlog. simpl.
  rewrite (filter_has_id _ _ _ H). reflexivity.
Qed.
End Handlers.

(* ================================================================= *)
(** * The specification's statements, on the code *)

(** ** Identifier assignment *)

(** C1.  [addBlog] takes [blogs.length + 1] as the new id.  On the demo
    data, after [DELETE /api/blogs/2] the array has two elements, so the
    next [POST] is given id 3: an id already issued, and still held by
    the third demo record.  The new record is appended and returned. *)
Theorem addBlog_reissues_id_after_delete :
  serve [DELETE "2"; POST (json_title "D")] blogs
  = ([ Normal (Sent (Msg "Blog with ID 2 is deleted"));
       Normal (Sent (Blog {| id := num_of_Z 3; title := VString "D" |})) ],
     [ Some {| id := num_of_Z 1; title := VString "This is an experiment" |};
       Some {| id := num_of_Z 3; title := VString "Just another blog, yea!" |};
       Some {| id := num_of_Z 3; title := VString "D" |} ]).
Proof. vm_compute. reflexivity. Qed.

(** C2.  The demo data has one record per id, and so has the array after
    [DELETE /api/blogs/2]; the [POST] that follows leaves two records
    with id 3. *)
Theorem unique_ids_broken_by_addBlog :
  unique_ids blogs = true
  /\ unique_ids (snd (serve [DELETE "2"] blogs)) = true
  /\ unique_ids (snd (serve [DELETE "2"; POST (json_title "D")] blogs))
     = false.
Proof. vm_compute. repeat split. Qed.

(** C6.  After [DELETE /api/blogs/2] and [POST { title: 'D' }], which
    returns id 3, [GET /api/blogs/3] answers with the older record of
    id 3, whose title is not the one just created. *)
Theorem create_then_get_finds_older_record :
  fst (serve [DELETE "2"; POST (json_title "D"); GET "3"] blogs)
  = [ Normal (Sent (Msg "Blog with ID 2 is deleted"));
      Normal (Sent (Blog {| id := num_of_Z 3; title := VString "D" |}));
      Normal (Sent (Blog {| id := num_of_Z 3;
                            title := VString "Just another blog, yea!" |})) ].
Proof. vm_compute. reflexivity. Qed.

(** C7.  The scenario on records 1 "A", 2 "B", 3 "C": the first three
    answers are the expected ones; the final [POST { title: 'D' }] answers
    with id 3, not 4. *)
Theorem scenario_ends_with_id_3 :
  fst (serve [GET "2"; DELETE "2"; GET_all; POST (json_title "D")] abc)
  = [ Normal (Sent (Blog {| id := num_of_Z 2; title := VString "B" |}));
      Normal (Sent (Msg "Blog with ID 2 is deleted"));
      Normal (Sent (Blogs
        [ Some {| id := num_of_Z 1; title := VString "A" |};
          Some {| id := num_of_Z 3; title := VString "C" |} ]));
      Normal (Sent (Blog {| id := num_of_Z 3; title := VString "D" |})) ].
Proof. vm_compute. reflexivity. Qed.

(** ** Update *)

(** C4.  [PUT /api/blogs/2] with [{ title: 'X' }] on the demo data
    returns the updated record and replaces record 2 in place, but the
    callback returns nothing for the other elements: records 1 and 3
    become [undefined]. *)
Theorem updateBlog_erases_other_records :
  updateBlog {| params_id := "2"; Controller.body := json_title "X" |} blogs
  = (Normal (Blog {| id := num_of_Z 2; title := VString "X" |}),
     [ None; Some {| id := num_of_Z 2; title := VString "X" |}; None ]).
Proof. vm_compute. reflexivity. Qed.

(** C3, as stated, fails on the demo data: no record has id 9, yet
    [PUT /api/blogs/9] does not answer [undefined] and does not leave the
    array as it was. *)
Lemma updateBlog_unknown_id_counterexample :
  let req := {| params_id := "9"; Controller.body := json_title "X" |} in
  existsb (has_id (Number (params_id req))) blogs = false
  /\ fst (updateBlog req blogs) <> Normal Undefined
  /\ snd (updateBlog req blogs) <> blogs.
Proof. vm_compute. repeat split; discriminate. Qed.

Lemma map_no_match (n : number) (u : blog) (s : store) :
  existsb (has_id n) s = false ->
  existsb (has_id n)
    (List.map (fun e => if has_id n e then Some u else None) s) = false.
Proof.
  induction s as [|e s IH]; simpl; intros H; [reflexivity|].
  apply orb_false_iff in H as [He Hs]. rewrite He. simpl. exact (IH Hs).
Qed.

(** C3, amended.  On an array of blog objects none of which has the
    requested id, and with a body whose [title] can be read, [updateBlog]
    raises nothing and returns the record made of the requested id and
    title; the array still holds no record with that id. *)
Theorem updateBlog_unknown_id_returns_record
    (req : request) (s : store) (t : value) :
  all_blogs s = true ->
  existsb (has_id (Number (params_id req))) s = false ->
  get (Controller.body req) "title" = Normal t ->
  fst (updateBlog req s)
  = Normal (Blog {| id := Number (params_id req); title := t |})
  /\ existsb (has_id (Number (params_id req))) (snd (updateBlog req s))
     = false.
Proof.
  intros Hs Hn Ht. rewrite (updateBlog_all_blogs req s t Hs Ht). simpl.
  split; [reflexivity | now apply map_no_match].
Qed.

Lemma updateBlog_unknown_id_returns_record_witness :
  let req := {| params_id := "9"; Controller.body := json_title "X" |} in
  all_blogs blogs = true
  /\ existsb (has_id (Number (params_id req))) blogs = false
  /\ get (Controller.body req) "title" = Normal (VString "X")
  /\ fst (updateBlog req blogs)
     = Normal (Blog {| id := Number (params_id req); title := VString "X" |})
  /\ existsb (has_id (Number (params_id req))) (snd (updateBlog req blogs))
     = false.
Proof.
  intros req.
  assert (Hs : all_blogs blogs = true) by reflexivity.
  assert (Hn : existsb (has_id (Number (params_id req))) blogs = false)
    by reflexivity.
  assert (Ht : get (Controller.body req) "title" = Normal (VString "X"))
    by reflexivity.
  pose proof (updateBlog_unknown_id_returns_record
                req blogs (VString "X") Hs Hn Ht) as [H1 H2].
  exact (conj Hs (conj Hn (conj Ht (conj H1 H2)))).
Defined.

(** ** Uniqueness of ids under the handlers other than [addBlog] *)

(** Two numbers that are [===] compare alike with any third. *)
Lemma strict_eq_congr (a n x : number) :
  (a === n) = true -> (x === n) = (x === a).
Proof.
  unfold strict_eq, SFeqb.
  destruct a as [sa|sa| |sa ma ea], n as [sn|sn| |sn mn en]; simpl;
    try discriminate;
    try (destruct sa, sn; discriminate);
    try (destruct sa; discriminate);
    try (destruct sn; discriminate).
  - intros _. destruct x; reflexivity.
  - destruct sa, sn; try discriminate; reflexivity.
  - change (Pos.compare_cont Eq ma mn) with (Pos.compare ma mn).
    destruct sa, sn; try discriminate;
      destruct (Z.compare_spec ea en) as [-> | |]; try discriminate;
      destruct (Pos.compare_spec ma mn) as [-> | |]; try discriminate;
      reflexivity.
Qed.

Lemma unique_ids_filter (p : entry -> bool) (s : store) :
  unique_ids s = true -> unique_ids (List.filter p s) = true.
Proof.
  induction s as [|[b|] s IH]; simpl; intros H; [reflexivity| |].
  - apply andb_true_iff in H as [Hb Hs].
    assert (Hf : existsb (has_id (id b)) (List.filter p s) = false).
    { apply negb_true_iff in Hb. clear - Hb.
      induction s as [|e s IH]; simpl in *; [reflexivity|].
      apply orb_false_iff in Hb as [He Hs].
      destruct (p e); simpl; [rewrite He|]; auto. }
    destruct (p (Some b)); simpl; [rewrite Hf|]; auto.
  - destruct (p None); simpl; auto.
Qed.

Lemma unique_ids_map (n : number) (u : blog) (s : store) :
  id u = n ->
  unique_ids s = true ->
  unique_ids (List.map (fun e => if has_id n e then Some u else None) s)
  = true.
Proof.
  intros <-. induction s as [|[b|] s IH]; simpl; intros H; auto.
  apply andb_true_iff in H as [Hb Hs].
  destruct (id b === id u) eqn:E; simpl; auto.
  rewrite (IH Hs), andb_true_r. apply negb_true_iff.
  apply map_no_match. apply negb_true_iff in Hb. clear - Hb E.
  induction s as [|[c|] s IH]; simpl in *; auto.
  apply orb_false_iff in Hb as [Hc Hs].
  rewrite (strict_eq_congr _ _ (id c) E), Hc. auto.
Qed.

(** Whatever the array holds, the filter of [deleteBlog] either raises,
    leaving the state alone, or keeps the elements with another id. *)
Lemma filter_outcome (n : number) (s st : store) :
  match filter (fun blog => i <- blog_id blog ;; ret (i !== n)) s st with
  | (Normal kept, st') =>
      st' = st /\ kept = List.filter (fun e => negb (has_id n e)) s
  | (Throw _, st') => st' = st
  end.
Proof.
  induction s as [|[b|] s IH]; simpl; auto.
  destruct (filter _ s st) as [[kept|e] st']; auto.
  destruct IH as [-> ->]. unfold strict_neq.
  destruct (id b === n); auto.
Qed.

Lemma deleteBlog_unique_ids (req : request) (s : store) :
  unique_ids s = true -> unique_ids (snd (deleteBlog req s)) = true.
Proof.
  intros H. unfold deleteBlog. simpl.
  pose proof (filter_outcome (Number (params_id req)) s s) as O.
  destruct (filter _ s s) as [[kept|e] st']; simpl.
  - destruct O as [_ ->]. now apply unique_ids_filter.
  - now subst.
Qed.

(** Likewise for the map of [updateBlog], when the body has a title. *)
Lemma map_outcome (req : request) (n : number) (t : value) (s st : store) :
  get (Controller.body req) "title" = Normal t ->
  match
    map (fun blog =>
           i <- blog_id blog ;;
           if i === n then
             t <- body_title req ;; ret (Some {| id := n; title := t |})
           else ret None) s st
  with
  | (Normal arr, st') =>
      st' = st
      /\ arr = List.map (fun e => if has_id n e
                                  then Some {| id := n; title := t |}
                                  else None) s
  | (Throw _, st') => st' = st
  end.
Proof.
  intros Ht. induction s as [|[b|] s IH]; simpl; auto.
  destruct (id b === n); simpl; [rewrite Ht|];
    (destruct (map _ s st) as [[arr|e] st']; auto;
     destruct IH as [-> ->]; auto).
Qed.

Lemma updateBlog_unique_ids (req : request) (s : store) (t : value) :
  get (Controller.body req) "title" = Normal t ->
  unique_ids s = true -> unique_ids (snd (updateBlog req s)) = true.
Proof.
  intros Ht H. unfold updateBlog. simpl.
  pose proof (map_outcome req (Number (params_id req)) t s s Ht) as O.
  destruct (map _ s s) as [[arr|e] st']; simpl.
  - destruct O as [_ ->]. rewrite Ht. simpl. now apply unique_ids_map.
  - now subst.
Qed.

(** ** Delete and get *)

(** On an array of blog objects, deleting an id and then getting it
    answers [undefined], and no record with that id remains. *)
Lemma filter_all_blogs (p : entry -> bool) (s : store) :
  all_blogs s = true -> all_blogs (List.filter p s) = true.
Proof.
  induction s as [|e s IH]; simpl; intros H; [reflexivity|].
  apply andb_true_iff in H as [He Hs].
  destruct (p e); simpl; [rewrite He|]; auto.
Qed.

Lemma filter_no_match (n : number) (s : store) :
  existsb (has_id n) (List.filter (fun e => negb (has_id n e)) s) = false.
Proof.
  induction s as [|e s IH]; simpl; [reflexivity|].
  destruct (has_id n e) eqn:E; simpl; [|rewrite E]; exact IH.
Qed.

Lemma find_no_match (n : number) (s : store) :
  existsb (has_id n) s = false -> List.find (has_id n) s = None.
Proof.
  induction s as [|e s IH]; simpl; intros H; [reflexivity|].
  apply orb_false_iff in H as [He Hs]. rewrite He. exact (IH Hs).
Qed.

Lemma filter_absent (n : number) (s : store) :
  existsb (has_id n) s = false ->
  List.filter (fun e => negb (has_id n e)) s = s.
Proof.
  induction s as [|e s IH]; simpl; intros H; [reflexivity|].
  apply orb_false_iff in H as [He Hs]. rewrite He. simpl. now rewrite IH.
Qed.

Lemma deleteBlog_then_getBlog (req : request) (s : store) :
  all_blogs s = true ->
  let s' := snd (deleteBlog req s) in
  getBlog req s' = (Normal Undefined, s')
  /\ existsb (has_id (Number (params_id req))) s' = false.
Proof.
  intros H. rewrite (deleteBlog_all_blogs req s H). simpl.
  split; [|apply filter_no_match].
  rewrite getBlog_all_blogs by now apply filter_all_blogs.
  now rewrite find_no_match by apply filter_no_match.
Qed.

(** C5.  After [PUT /api/blogs/1] the array is record 1 followed by two
    [undefined] elements.  [DELETE /api/blogs/1] then raises in the filter
    callback before [blogs] is assigned, so record 1 stays:
    [GET /api/blogs/1] still returns it and the list still holds it. *)
Theorem delete_after_update_keeps_record :
  serve [PUT "1" (json_title "X"); DELETE "1"; GET "1"; GET_all] blogs
  = ([ Normal (Sent (Blog {| id := num_of_Z 1; title := VString "X" |}));
       Throw TypeError;
       Normal (Sent (Blog {| id := num_of_Z 1; title := VString "X" |}));
       Normal (Sent (Blogs
         [ Some {| id := num_of_Z 1; title := VString "X" |}; None; None ])) ],
     [ Some {| id := num_of_Z 1; title := VString "X" |}; None; None ]).
Proof. vm_compute. reflexivity. Qed.

(** On an array of blog objects none of which has the requested id,
    [getBlog] answers [undefined] and leaves the array alone. *)
Lemma getBlog_unknown_id (req : request) (s : store) :
  all_blogs s = true ->
  existsb (has_id (Number (params_id req))) s = false ->
  getBlog req s = (Normal Undefined, s).
Proof.
  intros Hs Hn. rewrite (getBlog_all_blogs req s Hs).
  now rewrite (find_no_match _ _ Hn).
Qed.

(** C10.  After [PUT /api/blogs/2] the array starts with an [undefined]
    element; [GET /api/blogs/abc], whose id parses to [NaN] and matches no
    record, then raises instead of answering [undefined]. *)
Theorem getBlog_raises_after_update :
  Number "abc" = NaN
  /\ serve [PUT "2" (json_title "X"); GET "abc"] blogs
     = ([ Normal (Sent (Blog {| id := num_of_Z 2; title := VString "X" |}));
          Throw TypeError ],
        [ None; Some {| id := num_of_Z 2; title := VString "X" |}; None ]).
Proof. vm_compute. split; reflexivity. Qed.

(** C8, as stated, fails: nothing in what [deleteBlog] returns tells
    whether a record was removed.  No reading of the reply can, even on
    arrays of blog objects only. *)
Lemma deleteBlog_result_counterexample :
  ~ (exists removed : reply -> bool,
       forall (req : request) (s s' : store) (r : reply),
         all_blogs s = true ->
         deleteBlog req s = (Normal r, s') ->
         (removed r = true
          <-> existsb (has_id (Number (params_id req))) s = true)).
Proof.
  intros [removed H].
  pose (req := {| params_id := "2"; Controller.body := VUndefined |}).
  pose (r := Msg "Blog with ID 2 is deleted").
  assert (H1 : deleteBlog req blogs
               = (Normal r, snd (deleteBlog req blogs)))
    by (vm_compute; reflexivity).
  assert (H2 : deleteBlog req (snd (deleteBlog req blogs))
               = (Normal r, snd (deleteBlog req blogs)))
    by (vm_compute; reflexivity).
  apply H in H1; [|reflexivity]. apply H in H2; [|reflexivity].
  assert (E1 : existsb (has_id (Number (params_id req))) blogs = true)
    by reflexivity.
  assert (E2 : existsb (has_id (Number (params_id req)))
                 (snd (deleteBlog req blogs)) = false)
    by reflexivity.
  rewrite E2 in H2. apply H1 in E1. apply H2 in E1. discriminate.
Qed.

(** C8, amended.  On an array of blog objects, [deleteBlog] raises
    nothing, answers with the message naming the parsed id whether or not
    a record had it, and keeps exactly the records with another id, in
    order; when no record has the id the array is unchanged, and deleting
    again changes nothing more. *)
Theorem deleteBlog_removes_matching (req : request) (s : store) :
  all_blogs s = true ->
  let n := Number (params_id req) in
  let msg := Msg ("Blog with ID " ++ ToString n ++ " is deleted")%string in
  let s' := List.filter (fun e => negb (has_id n e)) s in
  deleteBlog req s = (Normal msg, s')
  /\ (existsb (has_id n) s = false -> s' = s)
  /\ deleteBlog req s' = (Normal msg, s').
Proof.
  intros H n msg s'. split; [|split].
  - exact (deleteBlog_all_blogs req s H).
  - apply filter_absent.
  - rewrite (deleteBlog_all_blogs req s') by now apply filter_all_blogs.
    fold n. fold msg. f_equal. apply filter_absent. apply filter_no_match.
Qed.

Lemma deleteBlog_removes_matching_witness :
  let req := {| params_id := "2"; Controller.body := VUndefined |} in
  let s' := [ Some {| id := num_of_Z 1;
                      title := VString "This is an experiment" |};
              Some {| id := num_of_Z 3;
                      title := VString "Just another blog, yea!" |} ] in
  all_blogs blogs = true
  /\ deleteBlog req blogs = (Normal (Msg "Blog with ID 2 is deleted"), s')
  /\ deleteBlog req s' = (Normal (Msg "Blog with ID 2 is deleted"), s').
Proof.
  intros req s'.
  assert (Hs : all_blogs blogs = true) by reflexivity.
  pose proof (deleteBlog_removes_matching req blogs Hs) as (H1 & _ & H2).
  vm_compute in H1, H2. vm_compute.
  exact (conj Hs (conj H1 H2)).
Defined.

(** ** Validation of the [POST] body *)

Lemma addBlogValidation_rejects (b : value) :
  lacks_title b \/ has_other_property b ->
  exists bs message,
    Routes.body addBlogValidation = Some bs
    /\ validate_body bs b = Some message.
Proof.
  intros H. eexists. simpl. unfold validate_body. simpl.
  destruct b as [| | | | | |props];
    try (eexists; split; reflexivity).
  simpl. unfold has_key at 1.
  destruct (lookup "title" props) as [t|] eqn:Et;
    [|eexists; split; reflexivity].
  destruct H as [H | (props' & k & v & E & Hin & Hk)];
    [simpl in H; congruence|].
  injection E as <-.
  assert (Hx : existsb (fun kv => negb (has_key (fst kv)
                          [ ("title", {| type := "string" |}) ])) props
               = true).
  { apply existsb_exists. exists (k, v). split; [exact Hin|].
    unfold has_key. cbn [lookup fst].
    destruct (String.eqb_spec "title" k) as [E|_]; [|reflexivity].
    now symmetry in E. }
  simpl. rewrite Hx. eexists; split; reflexivity.
Qed.

(** C9.  A [POST /api/blogs] whose body lacks [title], or carries a
    property other than [title], is answered with a validation error;
    the answer and the state are the same whatever handler the route has,
    so the handler is not run and [blogs] is unchanged. *)
Theorem addBlog_route_rejects_body (req : request) (s : store) :
  lacks_title (Controller.body req)
  \/ has_other_property (Controller.body req) ->
  exists message,
    inject {| c_method := "POST"; c_url := "/api/blogs"; c_req := req |} s
    = (Normal (BadRequest message), s)
    /\ forall h : request -> M store reply,
         dispatch {| method := "POST"; url := "/api/blogs";
                     schema := Some addBlogValidation; handler := h |} req s
         = (Normal (BadRequest message), s).
Proof.
  intros H.
  destruct (addBlogValidation_rejects _ H) as (bs & message & Eb & Ev).
  injection Eb as <-. exists message.
  assert (D : forall h : request -> M store reply,
             dispatch {| method := "POST"; url := "/api/blogs";
                         schema := Some addBlogValidation; handler := h |}
               req s
             = (Normal (BadRequest message), s)).
  { intros h. unfold dispatch, validate. simpl.
    unfold addBlogValidation in Ev. simpl in Ev. now rewrite Ev. }
  split; [exact (D addBlog) | exact D].
Qed.

Lemma addBlog_route_rejects_body_witness :
  let req := {| params_id := "";
                Controller.body :=
                  VObject [ ("title", VString "D"); ("id", VNumber (num_of_Z 7)) ]
             |} in
  has_other_property (Controller.body req)
  /\ exists message,
       inject {| c_method := "POST"; c_url := "/api/blogs"; c_req := req |}
         blogs
       = (Normal (BadRequest message), blogs).
Proof.
  intros req.
  assert (H : has_other_property (Controller.body req)).
  { exists [ ("title", VString "D"); ("id", VNumber (num_of_Z 7)) ],
      "id", (VNumber (num_of_Z 7)).
    split; [reflexivity|]. split; [simpl; tauto | discriminate]. }
  destruct (addBlog_route_rejects_body req blogs (or_intror H))
    as (message & E & _).
  exact (conj H (ex_intro _ message E)).
Defined.

(* ================================================================= *)
(** * Further properties of the handlers *)

(** ** Reading *)

Lemma find_first_match (n : number) (b : blog) (pre post : list entry)
    (st : store) :
  all_blogs pre = true ->
  existsb (has_id n) pre = false ->
  (id b === n) = true ->
  find (fun blog => i <- blog_id blog ;; ret (i === n))
    (pre ++ Some b :: post)%list st
  = (Normal (Some (Some b)), st).
Proof.
  intros Hp Hn Hb. induction pre as [|e pre IH]; simpl.
  - now rewrite Hb.
  - apply all_blogs_cons in Hp as (c & -> & Hp).
    simpl in Hn. apply orb_false_iff in Hn as [Hc Hn].
    simpl. rewrite Hc. exact (IH Hp Hn).
Qed.

Lemma find_undefined_first (n : number) (pre post : list entry) (st : store) :
  all_blogs pre = true ->
  existsb (has_id n) pre = false ->
  find (fun blog => i <- blog_id blog ;; ret (i === n))
    (pre ++ None :: post)%list st
  = (Throw TypeError, st).
Proof.
  intros Hp Hn. induction pre as [|e pre IH]; simpl; [reflexivity|].
  apply all_blogs_cons in Hp as (c & -> & Hp).
  simpl in Hn. apply orb_false_iff in Hn as [Hc Hn].
  simpl. rewrite Hc. exact (IH Hp Hn).
Qed.

(** X1.  [getBlog] returns the first record whose id is [===] to the
    parsed id, and reads no element after it: what follows the record,
    [undefined] included, does not matter.  [blogs] is left as it was. *)
Theorem getBlog_returns_first_match (req : request) (b : blog)
    (pre post : list entry) :
  all_blogs pre = true ->
  existsb (has_id (Number (params_id req))) pre = false ->
  (id b === Number (params_id req)) = true ->
  getBlog req (pre ++ Some b :: post)%list
  = (Normal (Blog b), (pre ++ Some b :: post)%list).
Proof.
  intros Hp Hn Hb. unfold getBlog. simpl.
  now rewrite (find_first_match _ b pre post _ Hp Hn Hb).
Qed.

(** X2.  When an [undefined] element comes before any record with the
    requested id, [getBlog] raises a TypeError, and [blogs] is left as it
    was. *)
Theorem getBlog_raises_on_undefined (req : request) (pre post : list entry) :
  all_blogs pre = true ->
  existsb (has_id (Number (params_id req))) pre = false ->
  getBlog req (pre ++ None :: post)%list
  = (Throw TypeError, (pre ++ None :: post)%list).
Proof.
  intros Hp Hn. unfold getBlog. simpl.
  now rewrite (find_undefined_first _ pre post _ Hp Hn).
Qed.

Lemma find_some_match (n : number) (s : store) :
  existsb (has_id n) s = true ->
  exists b, List.find (has_id n) s = Some (Some b).
Proof.
  induction s as [|[b|] s IH]; simpl; intros H; try discriminate; auto.
  destruct (id b === n); [eauto | auto].
Qed.

(** X3.  On an array of blog objects, [getBlog] answers [undefined]
    exactly when no record has the requested id. *)
Theorem getBlog_undefined_iff_absent (req : request) (s : store) :
  all_blogs s = true ->
  (getBlog req s = (Normal Undefined, s)
   <-> existsb (has_id (Number (params_id req))) s = false).
Proof.
  intros Hs. rewrite (getBlog_all_blogs req s Hs). split.
  - intros H. destruct (existsb _ s) eqn:E; [|reflexivity].
    destruct (find_some_match _ _ E) as [b Hb]. rewrite Hb in H. discriminate.
  - intros H. now rewrite (find_no_match _ _ H).
Qed.

Lemma strict_eq_NaN (x : number) : (x === NaN) = false.
Proof. destruct x; reflexivity. Qed.

Lemma has_id_NaN (s : store) : existsb (has_id NaN) s = false.
Proof.
  induction s as [|[b|] s IH]; simpl; auto. now rewrite strict_eq_NaN.
Qed.

(** X4.  A path id that parses to [NaN] finds nothing in an array of
    blog objects, whatever ids it holds. *)
Theorem getBlog_NaN_id (req : request) (s : store) :
  Number (params_id req) = NaN ->
  all_blogs s = true ->
  getBlog req s = (Normal Undefined, s).
Proof.
  intros E Hs. apply getBlog_unknown_id; [exact Hs|].
  rewrite E. apply has_id_NaN.
Qed.

(** X5.  [getAllBlogs] and [getBlog] never assign to [blogs], whether
    they return or raise. *)
Theorem reads_keep_store (req : request) (s : store) :
  snd (getAllBlogs req s) = s /\ snd (getBlog req s) = s.
Proof. split; [reflexivity | apply getBlog_keeps_store]. Qed.

(** ** Arrays that hold [undefined] *)

Lemma filter_raises (n : number) (s st : store) :
  all_blogs s = false ->
  filter (fun blog => i <- blog_id blog ;; ret (i !== n)) s st
  = (Throw TypeError, st).
Proof.
  induction s as [|[b|] s IH]; simpl; intros H; try discriminate; auto.
  now rewrite (IH H).
Qed.

Lemma map_raises (req : request) (n : number) (s st : store) :
  all_blogs s = false ->
  map (fun blog =>
         i <- blog_id blog ;;
         if i === n then
           t <- body_title req ;; ret (Some {| id := n; title := t |})
         else ret None) s st
  = (Throw TypeError, st).
Proof.
  induction s as [|[b|] s IH]; simpl; intros H; try discriminate; auto.
  destruct (id b === n); simpl.
  - destruct (get (Controller.body req) "title") as [t|[]]; [|reflexivity].
    now rewrite (IH H).
  - now rewrite (IH H).
Qed.

Lemma writes_raise (req : request) (s : store) :
  all_blogs s = false ->
  deleteBlog req s = (Throw TypeError, s)
  /\ updateBlog req s = (Throw TypeError, s).
Proof.
  intros H. unfold deleteBlog, updateBlog. simpl.
  now rewrite (filter_raises _ s s H), (map_raises req _ s s H).
Qed.

(** X9.  On an array that holds an [undefined] element, [deleteBlog] and
    [updateBlog] raise a TypeError and leave [blogs] as it was, whatever
    the request. *)
Theorem writes_raise_on_undefined (req : request) (s : store) :
  all_blogs s = false ->
  deleteBlog req s = (Throw TypeError, s)
  /\ updateBlog req s = (Throw TypeError, s).
Proof. exact (writes_raise req s). Qed.

Lemma map_leaves_undefined (n : number) (u : blog) (s : store) :
  existsb (fun e => negb (has_id n e)) s = true ->
  all_blogs (List.map (fun e => if has_id n e then Some u else None) s)
  = false.
Proof.
  induction s as [|e s IH]; simpl; intros H; [discriminate|].
  destruct (has_id n e); simpl; auto.
Qed.

(** X12.  After an update that leaves some record unmatched, every later
    [deleteBlog] and [updateBlog] raises a TypeError and changes nothing. *)
Theorem updateBlog_blocks_later_writes (req req' : request) (s : store)
    (t : value) :
  all_blogs s = true ->
  get (Controller.body req) "title" = Normal t ->
  existsb (fun e => negb (has_id (Number (params_id req)) e)) s = true ->
  let s' := snd (updateBlog req s) in
  deleteBlog req' s' = (Throw TypeError, s')
  /\ updateBlog req' s' = (Throw TypeError, s').
Proof.
  intros Hs Ht Hu s'. apply writes_raise.
  unfold s'. rewrite (updateBlog_all_blogs req s t Hs Ht). simpl.
  now apply map_leaves_undefined.
Qed.

(** X10.  On an array of blog objects and with a readable title,
    [updateBlog] returns the record made of the parsed id and the title,
    keeps the length of the array, and puts that record at every
    position whose record had the id and [undefined] at every other
    position. *)
Theorem updateBlog_positions (req : request) (s : store) (t : value) :
  all_blogs s = true ->
  get (Controller.body req) "title" = Normal t ->
  let u := {| id := Number (params_id req); title := t |} in
  let s' := snd (updateBlog req s) in
  fst (updateBlog req s) = Normal (Blog u)
  /\ List.length s' = List.length s
  /\ forall i e, nth_error s i = Some e ->
       nth_error s' i
       = Some (if has_id (Number (params_id req)) e then Some u else None).
Proof.
  intros Hs Ht u s'. unfold s'.
  rewrite (updateBlog_all_blogs req s t Hs Ht). simpl.
  split; [reflexivity|]. split; [apply length_map|].
  intros i e H. rewrite nth_error_map, H. reflexivity.
Qed.

(** PUT without a body *)
Lemma map_no_title (req : request) (n : number) (s st : store) :
  all_blogs s = true ->
  get (Controller.body req) "title" = Throw TypeError ->
  map (fun blog =>
         i <- blog_id blog ;;
         if i === n then
           t <- body_title req ;; ret (Some {| id := n; title := t |})
         else ret None) s st
  = if existsb (has_id n) s then (Throw TypeError, st)
    else (Normal (List.map (fun _ => None) s), st).
Proof.
  intros Hs Ht. induction s as [|e s IH]; simpl; [reflexivity|].
  apply all_blogs_cons in Hs as (b & -> & Hs). simpl.
  destruct (id b === n); simpl.
  - now rewrite Ht.
  - rewrite (IH Hs). now destruct (existsb (has_id n) s).
Qed.

(** X11.  A [PUT] without a body ([undefined] or [null]) on an array of
    blog objects raises a TypeError.  When a record has the id, [blogs] is
    left as it was; when none has, every element has already been
    replaced by [undefined]. *)
Theorem updateBlog_without_body (req : request) (s : store) :
  Controller.body req = VUndefined \/ Controller.body req = VNull ->
  all_blogs s = true ->
  updateBlog req s
  = (Throw TypeError,
     if existsb (has_id (Number (params_id req))) s then s
     else List.map (fun _ => None) s).
Proof.
  intros Hb Hs.
  assert (Ht : get (Controller.body req) "title" = Throw TypeError)
    by (destruct Hb as [-> | ->]; reflexivity).
  unfold updateBlog. simpl. rewrite (map_no_title req _ s s Hs Ht).
  destruct (existsb _ s); simpl; [reflexivity|]. now rewrite Ht.
Qed.

(** ** Deleting *)

Lemma strict_eq_sym (a b : number) : (a === b) = (b === a).
Proof.
  unfold strict_eq, SFeqb.
  destruct a as [sa|sa| |sa ma ea], b as [sb|sb| |sb mb eb]; simpl;
    try reflexivity;
    try (destruct sa; reflexivity); try (destruct sb; reflexivity);
    try (destruct sa, sb; reflexivity).
  change (Pos.compare_cont Eq ma mb) with (Pos.compare ma mb).
  change (Pos.compare_cont Eq mb ma) with (Pos.compare mb ma).
  rewrite (Z.compare_antisym ea eb), (Pos.compare_antisym ma mb).
  destruct sa, sb; try reflexivity;
    destruct (ea ?= eb); simpl; try reflexivity;
    destruct (ma ?= mb)%positive; reflexivity.
Qed.

(** A record cannot have two ids that differ. *)
Lemma has_id_exclusive (m n : number) (e : entry) :
  (m === n) = false -> has_id m e = true -> has_id n e = false.
Proof.
  destruct e as [b|]; simpl; [|discriminate]. intros Hmn Hb.
  rewrite (strict_eq_sym (id b) n), <- (strict_eq_congr _ _ n Hb).
  now rewrite strict_eq_sym.
Qed.

Lemma find_filter_other (m n : number) (s : store) :
  (m === n) = false ->
  List.find (has_id m) (List.filter (fun e => negb (has_id n e)) s)
  = List.find (has_id m) s.
Proof.
  intros Hmn. induction s as [|e s IH]; simpl; [reflexivity|].
  destruct (has_id m e) eqn:Em.
  - rewrite (has_id_exclusive m n e Hmn Em). simpl. now rewrite Em.
  - destruct (has_id n e); simpl; [|rewrite Em]; exact IH.
Qed.

(** X7.  On an array of blog objects, deleting one id does not change
    what [getBlog] answers for an id that is not [===] to it. *)
Theorem deleteBlog_keeps_other_lookups (req req' : request) (s : store) :
  all_blogs s = true ->
  (Number (params_id req') === Number (params_id req)) = false ->
  fst (getBlog req' (snd (deleteBlog req s))) = fst (getBlog req' s).
Proof.
  intros Hs Hd. rewrite (deleteBlog_all_blogs req s Hs). simpl.
  rewrite getBlog_all_blogs by now apply filter_all_blogs.
  rewrite (getBlog_all_blogs req' s Hs). simpl.
  now rewrite (find_filter_other _ _ s Hd).
Qed.

Lemma filter_comm {A : Type} (p q : A -> bool) (l : list A) :
  List.filter p (List.filter q l) = List.filter q (List.filter p l).
Proof.
  induction l as [|x l IH]; simpl; [reflexivity|].
  destruct (p x) eqn:P, (q x) eqn:Q; simpl; rewrite ?P, ?Q, IH; reflexivity.
Qed.

(** X8.  Two deletions leave the same array in either order, on every
    array. *)
Theorem deleteBlog_commutes (req req' : request) (s : store) :
  snd (deleteBlog req' (snd (deleteBlog req s)))
  = snd (deleteBlog req (snd (deleteBlog req' s))).
Proof.
  destruct (all_blogs s) eqn:Hs.
  - rewrite (deleteBlog_all_blogs req s Hs), (deleteBlog_all_blogs req' s Hs).
    simpl. rewrite !deleteBlog_all_blogs by now apply filter_all_blogs.
    simpl. apply filter_comm.
  - destruct (writes_raise req s Hs) as [-> _].
    destruct (writes_raise req' s Hs) as [-> _]. simpl.
    destruct (writes_raise req s Hs) as [-> _].
    destruct (writes_raise req' s Hs) as [-> _]. reflexivity.
Qed.

(** X6.  On an array of blog objects, [deleteBlog] followed by [getBlog]
    of the same id answers [undefined], and the array is the old one
    without the records of that id. *)
Theorem deleteBlog_then_getBlog_undefined (req : request) (s : store) :
  all_blogs s = true ->
  (_ <- deleteBlog req ;; getBlog req) s
  = (Normal Undefined,
     List.filter (fun e => negb (has_id (Number (params_id req)) e)) s).
Proof.
  intros Hs. cbn [bind]. rewrite (deleteBlog_all_blogs req s Hs).
  apply getBlog_unknown_id;
    [now apply filter_all_blogs | apply filter_no_match].
Qed.

(** ** One record per id *)

Lemma unique_ids_undefined (s : store) :
  unique_ids (List.map (fun _ : entry => @None blog) s) = true.
Proof. induction s; simpl; auto. Qed.

(** X13.  [getAllBlogs], [getBlog], [updateBlog] and [deleteBlog] keep the
    ids of the records pairwise distinct, on every array and for every
    request. *)
Theorem unique_ids_kept_by_all_but_addBlog (req : request) (s : store) :
  unique_ids s = true ->
  unique_ids (snd (getAllBlogs req s)) = true
  /\ unique_ids (snd (getBlog req s)) = true
  /\ unique_ids (snd (updateBlog req s)) = true
  /\ unique_ids (snd (deleteBlog req s)) = true.
Proof.
  intros H. split; [exact H|]. split; [now rewrite getBlog_keeps_store|].
  split; [|now apply deleteBlog_unique_ids].
  destruct (get (Controller.body req) "title") as [t|[]] eqn:Ht;
    [now apply (updateBlog_unique_ids req s t)|].
  destruct (all_blogs s) eqn:Hs.
  - unfold updateBlog. simpl. rewrite (map_no_title req _ s s Hs Ht).
    destruct (existsb _ s); simpl; [exact H|].
    rewrite Ht. simpl. apply unique_ids_undefined.
  - now destruct (writes_raise req s Hs) as [_ ->].
Qed.

(** ** Creating *)

(** X14.  With a readable title, [addBlog] never raises, even on an array
    that holds [undefined]: it appends one record, with that title,
    after the existing elements, and returns it. *)
Theorem addBlog_appends (req : request) (s : store) (t : value) :
  get (Controller.body req) "title" = Normal t ->
  exists b,
    addBlog req s = (Normal (Blog b), (s ++ [Some b])%list)
    /\ title b = t
    /\ id b = add (num_of_nat (List.length s)) (num_of_Z 1).
Proof.
  intros Ht. eexists. rewrite (addBlog_spec req s t Ht). simpl. auto.
Qed.

(** X15.  [addBlog] without a body ([undefined] or [null]) raises a
    TypeError before anything is pushed. *)
Theorem addBlog_without_body (req : request) (s : store) :
  Controller.body req = VUndefined \/ Controller.body req = VNull ->
  addBlog req s = (Throw TypeError, s).
Proof.
  intros [H | H]; unfold addBlog; simpl; rewrite H; reflexivity.
Qed.



(** ** Integers as numbers

    An integer below 2^53 is a number exactly: [num_of_Z] normalises its
    binary digits to 53 bits, adding one and comparing are exact. *)

Lemma iter_shl (p k : positive) : Pos.iter xO p k = shl p (Pos.to_nat k).
Proof. apply Pos2Nat.inj_iter. Qed.

Lemma shl_shl (p : positive) (a b : nat) : shl (shl p a) b = shl p (a + b).
Proof.
  induction b as [|b IH]; simpl.
  - now rewrite Nat.add_0_r.
  - rewrite Nat.add_succ_r. simpl. now rewrite IH.
Qed.

Lemma shl_inj (p q : positive) (n : nat) : shl p n = shl q n -> p = q.
Proof. induction n as [|n IH]; simpl; [auto|]. intros H. injection H. auto. Qed.

Lemma shl_value (p : positive) (n : nat) :
  Zpos (shl p n) = Zpos p * 2 ^ Z.of_nat n.
Proof.
  induction n as [|n IH]; [simpl; lia|].
  change (shl p (S n)) with (xO (shl p n)).
  rewrite Pos2Z.inj_xO, IH, Nat2Z.inj_succ, Z.pow_succ_r by lia. lia.
Qed.

Lemma digits_shl (p : positive) (n : nat) :
  Zpos (digits2_pos (shl p n)) = Zpos (digits2_pos p) + Z.of_nat n.
Proof.
  induction n as [|n IH]; [simpl; lia|].
  change (shl p (S n)) with (xO (shl p n)).
  change (digits2_pos (xO (shl p n)))
    with (Pos.succ (digits2_pos (shl p n))).
  rewrite Pos2Z.inj_succ, IH, Nat2Z.inj_succ. lia.
Qed.

Lemma digits_bound (q : positive) (k : nat) :
  Zpos q < 2 ^ Z.of_nat k -> Zpos (digits2_pos q) <= Z.of_nat k.
Proof.
  revert k. induction q as [q IH|q IH|]; intros [|k] H;
    try (simpl in H; lia);
    rewrite Nat2Z.inj_succ, Z.pow_succ_r in H by lia.
  - change (digits2_pos q~1) with (Pos.succ (digits2_pos q)).
    rewrite Pos2Z.inj_succ, Nat2Z.inj_succ.
    specialize (IH k). rewrite Pos2Z.inj_xI in H. lia.
  - change (digits2_pos q~0) with (Pos.succ (digits2_pos q)).
    rewrite Pos2Z.inj_succ, Nat2Z.inj_succ.
    specialize (IH k). rewrite Pos2Z.inj_xO in H. lia.
  - simpl. lia.
Qed.

Lemma iter_pos_nat {A : Type} (f : A -> A) (k : positive) (x : A) :
  iter_pos f k x = nat_rect (fun _ => A) x (fun _ => f) (Pos.to_nat k).
Proof.
  rewrite <- Pos2Nat.inj_iter. revert x.
  induction k as [k IH|k IH|]; intros x; simpl.
  - now rewrite !IH, !Pos.iter_swap.
  - now rewrite !IH.
  - reflexivity.
Qed.

Lemma nat_rect_swap {A : Type} (f : A -> A) (n : nat) (x : A) :
  nat_rect (fun _ => A) (f x) (fun _ => f) n
  = f (nat_rect (fun _ => A) x (fun _ => f) n).
Proof. induction n as [|n IH]; simpl; [reflexivity | now rewrite IH]. Qed.

Lemma shr_exact (m : positive) (n : nat) :
  nat_rect (fun _ => shr_record)
    {| shr_m := Zpos (shl m n); shr_r := false; shr_s := false |}
    (fun _ => shr_1) n
  = {| shr_m := Zpos m; shr_r := false; shr_s := false |}.
Proof.
  induction n as [|n IH]; [reflexivity|].
  cbn [nat_rect]. rewrite <- nat_rect_swap. exact IH.
Qed.

Lemma shr_fexp_exact (m : positive) (n : nat) (e : Z) :
  Zpos (digits2_pos m) = 53 ->
  -1074 <= e + Z.of_nat n ->
  shr_fexp prec emax (Zpos (shl m n)) e loc_Exact
  = ({| shr_m := Zpos m; shr_r := false; shr_s := false |}, e + Z.of_nat n).
Proof.
  intros Hd He. unfold shr_fexp, Zdigits2, fexp, emin, prec, emax.
  rewrite digits_shl, Hd.
  replace (Z.max (53 + Z.of_nat n + e - 53) (3 - 1024 - 53) - e)
    with (Z.of_nat n) by lia.
  unfold shr. destruct n as [|n]; [simpl; f_equal; lia|].
  change (Z.of_nat (S n)) with (Zpos (Pos.of_succ_nat n)). cbv iota beta.
  rewrite iter_pos_nat, SuccNat2Pos.id_succ.
  change (shr_record_of_loc (Zpos (shl m (S n))) loc_Exact)
    with {| shr_m := Zpos (shl m (S n)); shr_r := false; shr_s := false |}.
  now rewrite shr_exact.
Qed.

Lemma round_aux_exact (s : bool) (m : positive) (n : nat) (e : Z) :
  Zpos (digits2_pos m) = 53 ->
  -1074 <= e + Z.of_nat n <= 971 ->
  binary_round_aux prec emax s (Zpos (shl m n)) e loc_Exact
  = S754_finite s m (e + Z.of_nat n).
Proof.
  intros Hd He. unfold binary_round_aux.
  rewrite (shr_fexp_exact m n e Hd) by lia. simpl shr_m.
  change (round_nearest_even (Zpos m)
            (loc_of_shr_record
               {| shr_m := Zpos m; shr_r := false; shr_s := false |}))
    with (Zpos (shl m 0)).
  rewrite (shr_fexp_exact m 0 _ Hd) by (simpl; lia). simpl shr_m.
  replace (e + Z.of_nat n + Z.of_nat 0) with (e + Z.of_nat n) by (simpl; lia).
  unfold emax, prec.
  destruct (Z.leb_spec (e + Z.of_nat n) (1024 - 53)); [reflexivity | lia].
Qed.

Lemma round_shl (s : bool) (q : positive) (k : nat) :
  Zpos (digits2_pos q) <= 53 ->
  binary_round prec emax s (shl q k) (- Z.of_nat k)
  = S754_finite s (shl q (Z.to_nat (53 - Zpos (digits2_pos q))))
      (Zpos (digits2_pos q) - 53).
Proof.
  intros Hq. remember (Zpos (digits2_pos q)) as d eqn:Ed.
  assert (Hd : 0 < d) by lia.
  assert (Hm : Zpos (digits2_pos (shl q (Z.to_nat (53 - d)))) = 53).
  { rewrite digits_shl, <- Ed. lia. }
  unfold binary_round. rewrite digits_shl, <- Ed.
  unfold fexp, emin. unfold prec at 1 2, emax at 1.
  replace (Z.max (d + Z.of_nat k + - Z.of_nat k - 53) (3 - 1024 - 53))
    with (d - 53) by lia.
  unfold shl_align.
  destruct (d - 53 - - Z.of_nat k) as [|j|j] eqn:Ej.
  - replace k with (Z.to_nat (53 - d) + 0)%nat at 1 by lia.
    rewrite <- shl_shl, (round_aux_exact s _ 0 _ Hm) by (simpl; lia).
    f_equal. simpl. lia.
  - replace k with (Z.to_nat (53 - d) + Pos.to_nat j)%nat at 1 by lia.
    rewrite <- shl_shl, (round_aux_exact s _ _ _ Hm) by lia. f_equal. lia.
  - rewrite iter_shl, shl_shl.
    replace (k + Pos.to_nat j)%nat with (Z.to_nat (53 - d) + 0)%nat by lia.
    rewrite <- shl_shl, (round_aux_exact s _ 0 _ Hm) by (simpl; lia).
    f_equal. simpl. lia.
Qed.

Lemma num_of_Z_pos (q : positive) :
  Zpos q < 2 ^ 53 ->
  num_of_Z (Zpos q)
  = S754_finite false (shl q (Z.to_nat (53 - Zpos (digits2_pos q))))
      (Zpos (digits2_pos q) - 53).
Proof.
  intros H. apply (digits_bound q 53) in H.
  exact (round_shl false q 0 H).
Qed.


Lemma align_to_one (p : positive) :
  Zpos (digits2_pos p) <= 53 ->
  fst (shl_align (shl p (Z.to_nat (53 - Zpos (digits2_pos p))))
         (Zpos (digits2_pos p) - 53) (-52))
  = shl p 52.
Proof.
  remember (Zpos (digits2_pos p)) as d eqn:Ed. intros H. unfold shl_align.
  destruct (-52 - (d - 53)) as [|j|j] eqn:Ej;
    cbn [fst]; [f_equal; lia | lia |].
  rewrite iter_shl, shl_shl. f_equal. lia.
Qed.

Lemma add_pos_one (p : positive) :
  Zpos p + 1 < 2 ^ 53 ->
  add (num_of_Z (Zpos p)) (num_of_Z 1) = num_of_Z (Zpos (p + 1)).
Proof.
  intros H.
  assert (Hp : Zpos (digits2_pos p) <= 53) by (apply (digits_bound p 53); lia).
  assert (Hq : Zpos (digits2_pos (p + 1)) <= 53)
    by (apply (digits_bound (p + 1) 53); lia).
  rewrite (num_of_Z_pos p), (num_of_Z_pos (p + 1)) by lia.
  change (num_of_Z 1) with (S754_finite false (shl 1 52) (-52)).
  unfold add, SFadd.
  rewrite Z.min_r by lia. rewrite (align_to_one p Hp).
  change (fst (shl_align (shl 1 52) (-52) (-52))) with (shl 1 52).
  unfold cond_Zopp.
  replace (Zpos (shl p 52) + Zpos (shl 1 52)) with (Zpos (shl (p + 1) 52))
    by (rewrite !shl_value; lia).
  exact (round_shl false (p + 1) 52 Hq).
Qed.

Lemma add_one (n : nat) :
  Z.of_nat n + 1 < 2 ^ 53 ->
  add (num_of_nat n) (num_of_Z 1) = num_of_nat (S n).
Proof.
  intros H. destruct n as [|n]; [reflexivity|].
  unfold num_of_nat. rewrite (Nat2Z.inj_succ (S n)).
  change (Z.of_nat (S n)) with (Zpos (Pos.of_succ_nat n)) in *.
  rewrite add_pos_one by exact H. f_equal; lia.
Qed.

Lemma num_of_Z_eq (a b : positive) :
  Zpos a < 2 ^ 53 -> Zpos b < 2 ^ 53 ->
  (num_of_Z (Zpos a) === num_of_Z (Zpos b)) = Pos.eqb a b.
Proof.
  intros Ha Hb. rewrite (num_of_Z_pos a Ha), (num_of_Z_pos b Hb).
  unfold strict_eq, SFeqb, SFcompare.
  change (Pos.compare_cont Eq ?x ?y) with (Pos.compare x y).
  destruct (Pos.eqb_spec a b) as [-> | Hab].
  - now rewrite Z.compare_refl, Pos.compare_refl.
  - destruct (Z.compare_spec (Zpos (digits2_pos a) - 53)
                (Zpos (digits2_pos b) - 53)) as [E | |]; try reflexivity.
    assert (Ed : digits2_pos a = digits2_pos b) by lia. rewrite Ed.
    destruct (Pos.compare_spec
                (shl a (Z.to_nat (53 - Zpos (digits2_pos b))))
                (shl b (Z.to_nat (53 - Zpos (digits2_pos b)))))
      as [E' | |]; try reflexivity.
    now apply shl_inj in E'.
Qed.

Lemma num_of_nat_eq (a b : nat) :
  Z.of_nat a < 2 ^ 53 -> Z.of_nat b < 2 ^ 53 ->
  (num_of_nat a === num_of_nat b) = Nat.eqb a b.
Proof.
  intros Ha Hb. unfold num_of_nat.
  destruct a as [|a], b as [|b]; try reflexivity.
  - change (Z.of_nat (S b)) with (Zpos (Pos.of_succ_nat b)) in *.
    rewrite (num_of_Z_pos _ Hb). reflexivity.
  - change (Z.of_nat (S a)) with (Zpos (Pos.of_succ_nat a)) in *.
    rewrite (num_of_Z_pos _ Ha). reflexivity.
  - change (Z.of_nat (S a)) with (Zpos (Pos.of_succ_nat a)) in *.
    change (Z.of_nat (S b)) with (Zpos (Pos.of_succ_nat b)) in *.
    rewrite (num_of_Z_eq _ _ Ha Hb).
    destruct (Pos.eqb_spec (Pos.of_succ_nat a) (Pos.of_succ_nat b)) as [E|E],
             (Nat.eqb_spec (S a) (S b)) as [E'|E']; try reflexivity; lia.
Qed.

(** ** Ids while nothing is deleted *)

Lemma counted_all_blogs (k : nat) (s : store) :
  counted k s -> all_blogs s = true.
Proof.
  revert k. induction s as [|[b|] s IH]; simpl; intros k H;
    [reflexivity | exact (IH _ (proj2 H)) | contradiction].
Qed.

Lemma counted_push (k : nat) (s : store) (b : blog) :
  counted k s -> id b = num_of_nat (k + List.length s) ->
  counted k (s ++ [Some b])%list.
Proof.
  revert k. induction s as [|[c|] s IH]; simpl; intros k H Hb.
  - now rewrite Nat.add_0_r in Hb.
  - destruct H as [Hc H]. split; [exact Hc|].
    apply IH; [exact H|]. now rewrite Nat.add_succ_l, <- Nat.add_succ_r.
  - contradiction.
Qed.

Lemma counted_absent (j k : nat) (s : store) :
  counted k s ->
  Z.of_nat (k + List.length s) <= 2 ^ 53 -> Z.of_nat j < 2 ^ 53 ->
  (j < k \/ k + List.length s <= j)%nat ->
  existsb (has_id (num_of_nat j)) s = false.
Proof.
  revert k. induction s as [|[c|] s IH]; simpl; intros k H Hk Hj Hr;
    [reflexivity| |contradiction].
  destruct H as [Hc H]. rewrite Hc, num_of_nat_eq by lia.
  destruct (Nat.eqb_spec k j); [lia|]. simpl.
  apply (IH (S k)); [exact H | lia | lia | lia].
Qed.

Lemma counted_unique (k : nat) (s : store) :
  counted k s -> Z.of_nat (k + List.length s) <= 2 ^ 53 ->
  unique_ids s = true.
Proof.
  revert k. induction s as [|[c|] s IH]; simpl; intros k H Hk;
    [reflexivity| |contradiction].
  destruct H as [Hc H]. rewrite Hc.
  rewrite (counted_absent k (S k) s H) by lia. simpl.
  apply (IH (S k)); [exact H | lia].
Qed.

(** X16.  On an array shorter than 2^53 - 1, as every array is, the id
    [blogs.length + 1] is computed without rounding: it is the number of
    the integer that follows the length. *)
Theorem addBlog_id_exact (req : request) (s : store) (t : value) :
  Z.of_nat (List.length s) + 1 < 2 ^ 53 ->
  get (Controller.body req) "title" = Normal t ->
  fst (addBlog req s)
  = Normal (Blog {| id := num_of_nat (S (List.length s)); title := t |}).
Proof.
  intros Hl Ht. rewrite (addBlog_spec req s t Ht). cbv zeta. cbn [fst].
  now rewrite (add_one _ Hl).
Qed.

(** X17.  While the records carry the ids 1, 2, ... in order (nothing was
    deleted or updated), [addBlog] keeps it so: the new id is held by no
    existing record, and the ids stay pairwise distinct. *)
Theorem addBlog_keeps_count (req : request) (s : store) (t : value) :
  counted 1 s ->
  Z.of_nat (List.length s) + 1 < 2 ^ 53 ->
  get (Controller.body req) "title" = Normal t ->
  let s' := snd (addBlog req s) in
  counted 1 s'
  /\ existsb (has_id (num_of_nat (S (List.length s)))) s = false
  /\ unique_ids s' = true.
Proof.
  intros Hc Hl Ht s'.
  assert (Hs' : counted 1 s').
  { unfold s'. rewrite (addBlog_spec req s t Ht). cbv zeta. cbn [snd].
    apply counted_push; [exact Hc|]. cbn [id]. now apply add_one. }
  split; [exact Hs'|]. split.
  - apply (counted_absent _ 1 s Hc); lia.
  - apply (counted_unique 1 s' Hs'). unfold s'.
    rewrite (addBlog_spec req s t Ht). cbv zeta. cbn [snd].
    rewrite length_app. simpl List.length. lia.
Qed.

(** X18.  While the records carry the ids 1, 2, ... in order, [addBlog]
    followed by [getBlog] of the new id returns the record just created. *)
Theorem addBlog_then_getBlog (req req' : request) (s : store) (t : value) :
  counted 1 s ->
  Z.of_nat (List.length s) + 1 < 2 ^ 53 ->
  get (Controller.body req) "title" = Normal t ->
  Number (params_id req') = num_of_nat (S (List.length s)) ->
  let b := {| id := num_of_nat (S (List.length s)); title := t |} in
  (_ <- addBlog req ;; getBlog req') s
  = (Normal (Blog b), (s ++ [Some b])%list).
Proof.
  intros Hc Hl Ht Hn b. cbn [bind].
  rewrite (addBlog_spec req s t Ht). cbv zeta. rewrite (add_one _ Hl).
  fold b. unfold getBlog. simpl. rewrite Hn.
  rewrite (find_first_match _ b s [] _ (counted_all_blogs _ _ Hc)).
  - reflexivity.
  - apply (counted_absent _ 1 s Hc); lia.
  - simpl. rewrite num_of_nat_eq by lia. apply Nat.eqb_refl.
Qed.

(** ** Behind the schema *)

(** X19.  A [POST /api/blogs] is either refused by validation, with
    [blogs] unchanged, or carries a string title, and then [addBlog] does
    not raise: the record with that title is appended and sent. *)
Theorem addBlog_route_outcome (req : request) (s : store) :
  (exists message,
     inject {| c_method := "POST"; c_url := "/api/blogs"; c_req := req |} s
     = (Normal (BadRequest message), s))
  \/ (exists t b,
        get (Controller.body req) "title" = Normal (VString t)
        /\ title b = VString t
        /\ inject {| c_method := "POST"; c_url := "/api/blogs"; c_req := req |}
             s
           = (Normal (Sent (Blog b)), (s ++ [Some b])%list)).
Proof.
  unfold inject. simpl. unfold dispatch, validate. simpl.
  destruct (validate_body _ (Controller.body req)) as [message|] eqn:Ev;
    [left; exists message; reflexivity|]. right.
  unfold validate_body in Ev. simpl in Ev.
  destruct (Controller.body req) as [| | | | | |props] eqn:Eb;
    try discriminate.
  simpl in Ev. unfold has_key in Ev.
  destruct (lookup "title" props) as [v|] eqn:Et; [|discriminate].
  simpl in Ev.
  destruct (existsb _ props); [discriminate|]. simpl in Ev.
  destruct v; try discriminate.
  exists s0, {| id := add (num_of_nat (List.length s)) (num_of_Z 1);
                title := VString s0 |}.
  split; [simpl; now rewrite Et|]. split; [reflexivity|].
  unfold addBlog. simpl. rewrite Eb. simpl. now rewrite Et.
Qed.

(** ** The statements above, on the demo data *)

Lemma getBlog_returns_first_match_witness :
  getBlog {| params_id := "2"; Controller.body := VUndefined |}
    [ Some {| id := num_of_Z 1; title := VString "A" |};
      Some {| id := num_of_Z 2; title := VString "B" |}; None ]
  = (Normal (Blog {| id := num_of_Z 2; title := VString "B" |}),
     [ Some {| id := num_of_Z 1; title := VString "A" |};
       Some {| id := num_of_Z 2; title := VString "B" |}; None ]).
Proof.
  exact (getBlog_returns_first_match
           {| params_id := "2"; Controller.body := VUndefined |}
           {| id := num_of_Z 2; title := VString "B" |}
           [ Some {| id := num_of_Z 1; title := VString "A" |} ] [ None ]
           eq_refl eq_refl eq_refl).
Defined.

Lemma getBlog_raises_on_undefined_witness :
  getBlog {| params_id := "3"; Controller.body := VUndefined |}
    [ Some {| id := num_of_Z 1; title := VString "A" |}; None;
      Some {| id := num_of_Z 3; title := VString "C" |} ]
  = (Throw TypeError,
     [ Some {| id := num_of_Z 1; title := VString "A" |}; None;
       Some {| id := num_of_Z 3; title := VString "C" |} ]).
Proof.
  exact (getBlog_raises_on_undefined
           {| params_id := "3"; Controller.body := VUndefined |}
           [ Some {| id := num_of_Z 1; title := VString "A" |} ]
           [ Some {| id := num_of_Z 3; title := VString "C" |} ]
           eq_refl eq_refl).
Defined.

Lemma getBlog_undefined_iff_absent_witness :
  let req := {| params_id := "9"; Controller.body := VUndefined |} in
  all_blogs blogs = true
  /\ (getBlog req blogs = (Normal Undefined, blogs)
      <-> existsb (has_id (Number (params_id req))) blogs = false).
Proof.
  exact (conj eq_refl
           (getBlog_undefined_iff_absent
              {| params_id := "9"; Controller.body := VUndefined |}
              blogs eq_refl)).
Defined.

Lemma getBlog_NaN_id_witness :
  Number "abc" = NaN
  /\ getBlog {| params_id := "abc"; Controller.body := VUndefined |} blogs
     = (Normal Undefined, blogs).
Proof.
  exact (conj eq_refl
           (getBlog_NaN_id
              {| params_id := "abc"; Controller.body := VUndefined |}
              blogs eq_refl eq_refl)).
Defined.

Lemma deleteBlog_then_getBlog_undefined_witness :
  let req := {| params_id := "2"; Controller.body := VUndefined |} in
  all_blogs blogs = true
  /\ (_ <- deleteBlog req ;; getBlog req) blogs
     = (Normal Undefined,
        List.filter (fun e => negb (has_id (Number (params_id req)) e))
          blogs).
Proof.
  exact (conj eq_refl
           (deleteBlog_then_getBlog_undefined
              {| params_id := "2"; Controller.body := VUndefined |}
              blogs eq_refl)).
Defined.

Lemma deleteBlog_keeps_other_lookups_witness :
  let req := {| params_id := "2"; Controller.body := VUndefined |} in
  let req' := {| params_id := "3"; Controller.body := VUndefined |} in
  (Number (params_id req') === Number (params_id req)) = false
  /\ fst (getBlog req' (snd (deleteBlog req blogs)))
     = fst (getBlog req' blogs).
Proof.
  exact (conj eq_refl
           (deleteBlog_keeps_other_lookups
              {| params_id := "2"; Controller.body := VUndefined |}
              {| params_id := "3"; Controller.body := VUndefined |}
              blogs eq_refl eq_refl)).
Defined.

Lemma writes_raise_on_undefined_witness :
  let req := {| params_id := "1"; Controller.body := json_title "X" |} in
  let s := [ Some {| id := num_of_Z 1; title := VString "A" |}; None ] in
  all_blogs s = false
  /\ deleteBlog req s = (Throw TypeError, s)
  /\ updateBlog req s = (Throw TypeError, s).
Proof.
  exact (conj eq_refl
           (writes_raise_on_undefined
              {| params_id := "1"; Controller.body := json_title "X" |}
              [ Some {| id := num_of_Z 1; title := VString "A" |}; None ]
              eq_refl)).
Defined.

Lemma updateBlog_positions_witness :
  let req := {| params_id := "2"; Controller.body := json_title "X" |} in
  let u := {| id := Number "2"; title := VString "X" |} in
  all_blogs blogs = true
  /\ fst (updateBlog req blogs) = Normal (Blog u)
  /\ List.length (snd (updateBlog req blogs)) = List.length blogs.
Proof.
  pose proof (updateBlog_positions
                {| params_id := "2"; Controller.body := json_title "X" |}
                blogs (VString "X") eq_refl eq_refl) as (H1 & H2 & _).
  exact (conj eq_refl (conj H1 H2)).
Defined.

Lemma updateBlog_without_body_witness :
  updateBlog {| params_id := "9"; Controller.body := VUndefined |} blogs
  = (Throw TypeError, [ None; None; None ]).
Proof.
  exact (updateBlog_without_body
           {| params_id := "9"; Controller.body := VUndefined |} blogs
           (or_introl eq_refl) eq_refl).
Defined.

Lemma updateBlog_blocks_later_writes_witness :
  let req := {| params_id := "2"; Controller.body := json_title "X" |} in
  let req' := {| params_id := "1"; Controller.body := json_title "Y" |} in
  let s' := snd (updateBlog req blogs) in
  existsb (fun e => negb (has_id (Number (params_id req)) e)) blogs = true
  /\ deleteBlog req' s' = (Throw TypeError, s')
  /\ updateBlog req' s' = (Throw TypeError, s').
Proof.
  exact (conj eq_refl
           (updateBlog_blocks_later_writes
              {| params_id := "2"; Controller.body := json_title "X" |}
              {| params_id := "1"; Controller.body := json_title "Y" |}
              blogs (VString "X") eq_refl eq_refl eq_refl)).
Defined.

Lemma unique_ids_kept_by_all_but_addBlog_witness :
  let req := {| params_id := "2"; Controller.body := json_title "X" |} in
  unique_ids blogs = true
  /\ unique_ids (snd (updateBlog req blogs)) = true
  /\ unique_ids (snd (deleteBlog req blogs)) = true.
Proof.
  pose proof (unique_ids_kept_by_all_but_addBlog
                {| params_id := "2"; Controller.body := json_title "X" |}
                blogs eq_refl) as (_ & _ & H3 & H4).
  exact (conj eq_refl (conj H3 H4)).
Defined.

Lemma addBlog_appends_witness :
  let req := {| params_id := ""; Controller.body := json_title "D" |} in
  let s := [ None; Some {| id := num_of_Z 2; title := VString "X" |} ] in
  exists b,
    addBlog req s = (Normal (Blog b), (s ++ [Some b])%list)
    /\ title b = VString "D"
    /\ id b = add (num_of_nat (List.length s)) (num_of_Z 1).
Proof.
  exact (addBlog_appends
           {| params_id := ""; Controller.body := json_title "D" |}
           [ None; Some {| id := num_of_Z 2; title := VString "X" |} ]
           (VString "D") eq_refl).
Defined.

Lemma addBlog_without_body_witness :
  addBlog {| params_id := ""; Controller.body := VNull |} blogs
  = (Throw TypeError, blogs).
Proof.
  exact (addBlog_without_body
           {| params_id := ""; Controller.body := VNull |} blogs
           (or_intror eq_refl)).
Defined.

Lemma addBlog_id_exact_witness :
  fst (addBlog {| params_id := ""; Controller.body := json_title "D" |} blogs)
  = Normal (Blog {| id := num_of_nat 4; title := VString "D" |}).
Proof.
  exact (addBlog_id_exact
           {| params_id := ""; Controller.body := json_title "D" |} blogs
           (VString "D") eq_refl eq_refl).
Defined.

Lemma addBlog_keeps_count_witness :
  let req := {| params_id := ""; Controller.body := json_title "D" |} in
  counted 1 blogs
  /\ counted 1 (snd (addBlog req blogs))
  /\ existsb (has_id (num_of_nat 4)) blogs = false
  /\ unique_ids (snd (addBlog req blogs)) = true.
Proof.
  assert (Hc : counted 1 blogs)
    by exact (conj eq_refl (conj eq_refl (conj eq_refl I))).
  exact (conj Hc
           (addBlog_keeps_count
              {| params_id := ""; Controller.body := json_title "D" |}
              blogs (VString "D") Hc eq_refl eq_refl)).
Defined.

Lemma addBlog_then_getBlog_witness :
  let req := {| params_id := ""; Controller.body := json_title "D" |} in
  let req' := {| params_id := "4"; Controller.body := VUndefined |} in
  let b := {| id := num_of_nat 4; title := VString "D" |} in
  (_ <- addBlog req ;; getBlog req') blogs
  = (Normal (Blog b), (blogs ++ [Some b])%list).
Proof.
  exact (addBlog_then_getBlog
           {| params_id := ""; Controller.body := json_title "D" |}
           {| params_id := "4"; Controller.body := VUndefined |}
           blogs (VString "D")
           (conj eq_refl (conj eq_refl (conj eq_refl I)))
           eq_refl eq_refl eq_refl).
Defined.
